(** * Football-Stat-Visualizer: the sort visualizer, the geometry state,
      the data source adapter and the controller of
      [football_stat_visualizer.py], embedded in Rocq.

    Python lists that are updated by index are stdpp lists read with
    [!!] and written with [<[_:=_]>], with the [IndexError] of an index out
    of range written out.  Python integers are [Z].  Exceptions are values
    of the [result] monad.  Drawing on the window ([draw], and [draw_list]
    but for the rectangle of a bar) and printing are left out: they change
    neither the list nor a loop variable. *)

From Stdlib Require Import ZArith Lia SpecFloat.
From stdpp Require Import base option list sets sorting strings numbers gmap pretty.

Local Open Scope Z_scope.

(** ** Exceptions *)

Inductive exn : Set :=
| IndexError
| ValueError
| ZeroDivisionError
| JSONDecodeError
| TypeError.

Inductive result (A : Type) : Type :=
| Ok (a : A)
| Raise (e : exn).
Arguments Ok {A} a.
Arguments Raise {A} e.

Global Instance result_ret : MRet result := fun _ a => Ok a.
Global Instance result_bind : MBind result := fun _ _ f m =>
  match m with
  | Ok a => f a
  | Raise e => Raise e
  end.

(** ** Entries and in-place list access *)

(** An entry of the dataset: [(name, goals)]. *)
Definition entry : Type := string * Z.

Definition goals (e : entry) : Z := e.2.

(** [lst[i]] for an index that is not negative. *)
Definition getitem {A} (lst : list A) (i : nat) : result A :=
  match lst !! i with
  | Some x => Ok x
  | None => Raise IndexError
  end.

(** [lst[i] = x] for an index that is not negative. *)
Definition setitem {A} (lst : list A) (i : nat) (x : A) : result (list A) :=
  if decide (i < length lst)%nat then Ok (<[i:=x]> lst) else Raise IndexError.

(** [range(a, b)]; [range(b)] is [py_range 0 b].  The bounds of the program
    are differences of lengths: a negative bound gives the empty range, as
    the truncated subtraction of [nat] does. *)
Definition py_range (a b : nat) : list nat := seq a (b - a).

(** ** Sort visualizer *)

(** What a run of a sort does, in order: the start of an outer iteration,
    the comparison of [lst[j]] with [lst[j + 1]], their swap, the shift
    [lst[j] = lst[j - 1]], and a [yield].  [Yield green red] carries the two
    indices highlighted by the [draw_list] call before it. *)
Inductive event : Set :=
| Outer (i : nat)
| Cmp (j : nat)
| Swap (j : nat)
| Shift (j : nat)
| Yield (green red : nat).

(** The list shared with [draw_info] after a piece of code has run, and
    the trace of that piece. *)
Definition traced : Type := list entry * list event.

(** [for i in range: body(i)] on the list, stopping at the first
    exception. *)
Fixpoint for_each (range : list nat) (body : nat → list entry → result traced)
    (lst : list entry) : result traced :=
  match range with
  | [] => Ok (lst, [])
  | i :: range' =>
      '(lst, tr) ← body i lst;
      '(lst, tr') ← for_each range' body lst;
      Ok (lst, tr ++ tr')
  end.

(** [(num1 > num2 and ascending) or (num1 < num2 and not ascending)] *)
Definition out_of_order (ascending : bool) (num1 num2 : Z) : bool :=
  (num1 >? num2) && ascending || (num1 <? num2) && negb ascending.

(** The body of the inner loop of [bubble_sort]. *)
Definition bubble_body (ascending : bool) (j : nat) (lst : list entry)
    : result traced :=
  e1 ← getitem lst j;
  e2 ← getitem lst (j + 1);
  let num1 := e1.2 in
  let num2 := e2.2 in
  if out_of_order ascending num1 num2 then
    a ← getitem lst (j + 1);
    b ← getitem lst j;
    lst ← setitem lst j a;
    lst ← setitem lst (j + 1) b;
    Ok (lst, [Cmp j; Swap j; Yield j (j + 1)])
  else Ok (lst, [Cmp j]).

(** One iteration of the outer loop of [bubble_sort]. *)
Definition bubble_pass (ascending : bool) (i : nat) (lst : list entry)
    : result traced :=
  '(lst, tr) ← for_each (py_range 0 (length lst - 1 - i))
                 (bubble_body ascending) lst;
  Ok (lst, Outer i :: tr).

(** [bubble_sort(draw_info, ascending)] run to exhaustion on
    [draw_info.lst = lst]: the list it leaves and its trace. *)
Definition bubble_sort (ascending : bool) (lst : list entry) : result traced :=
  for_each (py_range 0 (length lst - 1)) (bubble_pass ascending) lst.

(** The [while] loop of [insertion_sort], by recursion on [j]: the list it
    leaves, its trace and the [j] it stops at. *)
Fixpoint shift_loop (ascending : bool) (current : entry) (j : nat)
    (lst : list entry) : result (list entry * list event * nat) :=
  match j with
  | O => Ok (lst, [], O)
  | S j' =>
      prev ← getitem lst j';
      if out_of_order ascending prev.2 current.2 then
        x ← getitem lst j';
        lst ← setitem lst j x;
        '(lst, tr, j) ← shift_loop ascending current j' lst;
        Ok (lst, Shift (S j') :: tr, j)
      else Ok (lst, [], j)
  end.

(** One iteration of the outer loop of [insertion_sort]. *)
Definition insertion_body (ascending : bool) (i : nat) (lst : list entry)
    : result traced :=
  current ← getitem lst i;
  '(lst, tr, j) ← shift_loop ascending current i lst;
  lst ← setitem lst j current;
  Ok (lst, Outer i :: tr ++ [Yield j i]).

(** [insertion_sort(draw_info, ascending)] run to exhaustion. *)
Definition insertion_sort (ascending : bool) (lst : list entry)
    : result traced :=
  for_each (py_range 1 (length lst)) (insertion_body ascending) lst.

(** The events of a trace, counted. *)
Definition is_cmp (e : event) : bool := match e with Cmp _ => true | _ => false end.
Definition is_swap (e : event) : bool := match e with Swap _ => true | _ => false end.
Definition is_yield (e : event) : bool := match e with Yield _ _ => true | _ => false end.

Definition count (p : event → bool) (tr : list event) : nat :=
  length (List.filter p tr).

Definition smith_jones_lee : list entry :=
  [("Smith"%string, 3); ("Jones"%string, 10); ("Lee"%string, 1)].

(** ** The order of a direction *)

(** [ordered ascending a b]: a value [a] may stand left of a value [b]. *)
Definition ordered (ascending : bool) (a b : Z) : Prop :=
  if ascending then a ≤ b else b ≤ a.

Definition ord (ascending : bool) (x y : entry) : Prop :=
  ordered ascending (goals x) (goals y).

(** ** Bubble sort: the passes as functions on lists

    These functions are not the code: the loops above are proved to
    compute them ([bubble_sort_spec], [insertion_sort_spec]), and the
    properties of the runs are proved on them. *)






(** ** Insertion sort: the insertions as functions on lists *)








(** ** Visualization state: [DrawInformation] *)

Definition SIDE_PAD : Z := 100.
Definition TOP_PAD : Z := 150.
Definition BOTTOM_PAD : Z := 150.

Record DrawInformation : Type := {
  width : Z;
  height : Z;
  lst : list entry;
  min_val : Z;
  max_val : Z;
  block_width : Z;
  block_height : Z;
  start_x : Z
}.

(** [min(...)] and [max(...)] of a sequence: [ValueError] on an empty one. *)
Definition py_min (vals : list Z) : result Z :=
  match vals with
  | [] => Raise ValueError
  | v :: vals' => Ok (foldl Z.min v vals')
  end.

Definition py_max (vals : list Z) : result Z :=
  match vals with
  | [] => Raise ValueError
  | v :: vals' => Ok (foldl Z.max v vals')
  end.

(** [a or b] on integers: [b] when [a] is zero. *)
Definition py_or (a b : Z) : Z := if a =? 0 then b else a.

(** The integer nearest to [a / b], the even one of the two on a tie, for
    [0 < b]: what [round] makes of a quotient. *)
Definition round_half_even (a b : Z) : Z :=
  let q := a / b in
  let r := a mod b in
  if 2 * r <? b then q
  else if b <? 2 * r then q + 1
  else if Z.even q then q else q + 1.

(** [round(a / b)] and [math.floor(a / b)] on integers [a] and [b].  The
    quotient [a / b] of Python is the double nearest to the exact quotient.
    The numerators of this program, 1300 and 700, are far below [2^52]:
    there that double lies on the same side of every integer and of every
    half-integer as the exact quotient, so rounding it and rounding the
    exact quotient give the same integer. *)
Definition py_round_div (a b : Z) : result Z :=
  if b =? 0 then Raise ZeroDivisionError else Ok (round_half_even a b).

Definition py_floor_div (a b : Z) : result Z :=
  if b =? 0 then Raise ZeroDivisionError else Ok (a / b).

(** The same two operations on the doubles themselves, after the
    specification of binary64 in the Standard Library: [float(a) / float(b)],
    then [round] or [math.floor] of that double.  They check the integer
    definitions above on the window of the program. *)
Definition float_of_int (z : Z) : spec_float :=
  binary_normalize 53 1024 z 0 false.

Definition float_truediv (x y : spec_float) : spec_float := SFdiv 53 1024 x y.

Definition float_round (x : spec_float) : option Z :=
  match x with
  | S754_zero _ => Some 0
  | S754_finite s m e =>
      let n := if 0 <=? e then Z.pos m * 2 ^ e
               else round_half_even (Z.pos m) (2 ^ (- e)) in
      Some (if s then - n else n)
  | _ => None
  end.

Definition float_floor (x : spec_float) : option Z :=
  match x with
  | S754_zero _ => Some 0
  | S754_finite s m e =>
      Some (if 0 <=? e
            then (if s then - (Z.pos m * 2 ^ e) else Z.pos m * 2 ^ e)
            else (if s then Z.neg m else Z.pos m) / 2 ^ (- e))
  | _ => None
  end.

(** [DrawInformation.set_list(self, lst)].  Nothing in the program catches
    an exception of it: the assignments made before one are of no use and
    are not kept. *)
Definition set_list (self : DrawInformation) (new_lst : list entry)
    : result DrawInformation :=
  mn ← py_min ((λ val, val.2) <$> new_lst);
  mx ← py_max ((λ val, val.2) <$> new_lst);
  bw ← py_round_div (width self - SIDE_PAD) (Z.of_nat (length new_lst));
  bh ← py_floor_div (height self - TOP_PAD - BOTTOM_PAD)
         (Z.max 1 (py_or (mx - mn) 1));
  Ok {| width := width self; height := height self; lst := new_lst;
        min_val := mn; max_val := mx;
        block_width := bw; block_height := bh;
        start_x := SIDE_PAD / 2 |}.

(** [DrawInformation(width, height, lst)], window and fonts left out. *)
Definition DrawInformation_init (w h : Z) (l : list entry)
    : result DrawInformation :=
  set_list {| width := w; height := h; lst := []; min_val := 0; max_val := 0;
              block_width := 0; block_height := 0; start_x := 0 |} l.





(** ** Data source adapter *)

(** The two requests of the program, for the URLs it formats. *)
Inductive request : Type :=
| GetTeams (search : string)
| GetPlayers (team : Z) (season : string) (page : nat).

(** A response: its status and what [response.json()] gives, which raises
    when the body is not JSON, and otherwise is an object with or without a
    ["response"] list. *)
Record http_response (A : Type) : Type := {
  status_code : Z;
  json : result (option (list A))
}.
Arguments status_code {A} _.
Arguments json {A} _.

Record team : Type := { team_id : Z; team_name : string }.

(** One entry of [player["statistics"]]: [stats["goals"]["total"]] and
    [stats["games"]["appearences"]], each an integer or [None]. *)
Record statistics : Type := {
  goals_total : option Z;
  games_appearences : option Z
}.

Record player : Type := {
  player_name : string;
  player_statistics : list statistics
}.

(** The server at the time of a call. *)
Record api : Type := {
  teams_endpoint : request → http_response team;
  players_endpoint : request → http_response player
}.

(** [requests.get(url, headers=headers)]: the response, and the request
    added to the log of those issued. *)
Definition requests_get {A} (endpoint : request → http_response A)
    (url : request) (log : list request) : http_response A * list request :=
  (endpoint url, log ++ [url]).

(** [data.get("response", [])] *)
Definition get_response {A} (data : option (list A)) : list A :=
  default [] data.

(** [not l] for a list *)
Definition py_not {A} (l : list A) : bool :=
  match l with [] => true | _ => false end.

Definition search_team (server : api) (name : string) (log : list request)
    : result (list team) * list request :=
  let url := GetTeams name in
  let '(response, log) := requests_get (teams_endpoint server) url log in
  if negb (status_code response =? 200) then (Ok [], log)
  else
    match json response with
    | Raise e => (Raise e, log)
    | Ok data =>
        let teams := get_response data in
        if py_not teams then (Ok [], log) else (Ok teams, log)
    end.

(** [x or 0] for an integer or [None] *)
Definition or_zero (x : option Z) : Z :=
  match x with
  | Some v => if v =? 0 then 0 else v
  | None => 0
  end.

(** [sum(...)] of integers *)
Definition py_sum (vals : list Z) : Z := foldl Z.add 0 vals.

Definition total_goals (p : player) : Z :=
  py_sum ((λ stats, or_zero (goals_total stats)) <$> player_statistics p).

Definition total_appearances (p : player) : Z :=
  py_sum ((λ stats, or_zero (games_appearences stats)) <$> player_statistics p).

(** The body of [for player in players]. *)
Definition add_player (goal_list : list entry) (p : player) : list entry :=
  let name := player_name p in
  if (total_goals p >? 0) && (total_appearances p >? 0)
  then goal_list ++ [(name, total_goals p)]
  else goal_list.

(** The [while True] loop of [fetch_players_by_goals]: [None] when it is
    still running after [fuel] pages. *)
Fixpoint fetch_loop (fuel : nat) (server : api) (team_id : Z)
    (season_year : string) (page : nat) (goal_list : list entry)
    (log : list request) : option (result (list entry) * list request) :=
  match fuel with
  | O => None
  | S fuel' =>
      let url := GetPlayers team_id season_year page in
      let '(response, log) := requests_get (players_endpoint server) url log in
      if negb (status_code response =? 200) then Some (Ok goal_list, log)
      else
        match json response with
        | Raise e => Some (Raise e, log)
        | Ok data =>
            let players := get_response data in
            if py_not players && (page =? 1)%nat then Some (Ok goal_list, log)
            else if py_not players then Some (Ok goal_list, log)
            else
              fetch_loop fuel' server team_id season_year (page + 1)
                (foldl add_player goal_list players) log
        end
  end.

Definition fetch_players_by_goals (fuel : nat) (server : api) (team_id : Z)
    (season_year : string) (log : list request)
    : option (result (list entry) * list request) :=
  match fetch_loop fuel server team_id season_year 1 [] log with
  | None => None
  | Some (Raise e, log) => Some (Raise e, log)
  | Some (Ok goal_list, log) => Some (Ok (take 20 goal_list), log)
  end.

(** A page after which the loop goes on, and a page at which it stops. *)
Definition continues (response : http_response player) : bool :=
  (status_code response =? 200)
  && match json response with
     | Ok data => negb (py_not (get_response data))
     | Raise _ => false
     end.

Definition breaks (response : http_response player) : bool :=
  negb (status_code response =? 200)
  || match json response with
     | Ok data => py_not (get_response data)
     | Raise _ => false
     end.

(** The players of a page, and the entry a player gets in the list, if any. *)
Definition page_players (response : http_response player) : list player :=
  match json response with
  | Ok data => get_response data
  | Raise _ => []
  end.

Definition qualifies (p : player) : option entry :=
  if (total_goals p >? 0) && (total_appearances p >? 0)
  then Some (player_name p, total_goals p)
  else None.

(** The players of pages [1 .. stop - 1], as the loop meets them. *)
Definition encountered (server : api) (team_id : Z) (season_year : string)
    (stop : nat) : list player :=
  flat_map
    (λ page, page_players
               (players_endpoint server (GetPlayers team_id season_year page)))
    (seq 1 (stop - 1)).

(** ** The sorts as generators *)

(** The frame of a suspended [bubble_sort]: what is left of the two [range]
    iterators at the [yield].  The local [lst] is [draw_info.lst]: the
    controller drops a generator when [set_list] installs another list. *)
Inductive bubble_frame : Type :=
| BubbleNotStarted
| BubbleAtYield (outer inner : list nat)
| BubbleFinished.

Inductive insertion_frame : Type :=
| InsertionNotStarted
| InsertionAtYield (outer : list nat)
| InsertionFinished.

Inductive generator : Type :=
| BubbleGenerator (ascending : bool) (frame : bubble_frame)
| InsertionGenerator (ascending : bool) (frame : insertion_frame).

(** The inner loop of [bubble_sort] from where it stands to its next
    [yield]: the list then and the rest of the range, or [None] when the
    range ends first. *)
Fixpoint bubble_resume_inner (ascending : bool) (inner : list nat)
    (l : list entry) : result (list entry * option (list nat)) :=
  match inner with
  | [] => Ok (l, None)
  | j :: inner' =>
      '(l', tr) ← bubble_body ascending j l;
      if existsb is_yield tr then Ok (l', Some inner')
      else bubble_resume_inner ascending inner' l'
  end.

(** The outer loop from the start of its next iteration to the next
    [yield] or to the end of the function. *)
Fixpoint bubble_resume_outer (ascending : bool) (outer : list nat)
    (l : list entry) : result (list entry * bubble_frame) :=
  match outer with
  | [] => Ok (l, BubbleFinished)
  | i :: outer' =>
      '(l', at_yield) ←
        bubble_resume_inner ascending (py_range 0 (length l - 1 - i)) l;
      match at_yield with
      | Some inner' => Ok (l', BubbleAtYield outer' inner')
      | None => bubble_resume_outer ascending outer' l'
      end
  end.

(** [next(generator)] on the list [l]: the list and the generator after it,
    and [true] when it yielded, [false] when it raised [StopIteration]. *)
Definition bubble_next (ascending : bool) (frame : bubble_frame)
    (l : list entry) : result (list entry * bubble_frame) :=
  match frame with
  | BubbleNotStarted =>
      bubble_resume_outer ascending (py_range 0 (length l - 1)) l
  | BubbleAtYield outer inner =>
      '(l', at_yield) ← bubble_resume_inner ascending inner l;
      match at_yield with
      | Some inner' => Ok (l', BubbleAtYield outer inner')
      | None => bubble_resume_outer ascending outer l'
      end
  | BubbleFinished => Ok (l, BubbleFinished)
  end.

Definition insertion_resume (ascending : bool) (outer : list nat)
    (l : list entry) : result (list entry * insertion_frame) :=
  match outer with
  | [] => Ok (l, InsertionFinished)
  | i :: outer' =>
      '(l', _) ← insertion_body ascending i l;
      Ok (l', InsertionAtYield outer')
  end.

Definition insertion_next (ascending : bool) (frame : insertion_frame)
    (l : list entry) : result (list entry * insertion_frame) :=
  match frame with
  | InsertionNotStarted => insertion_resume ascending (py_range 1 (length l)) l
  | InsertionAtYield outer => insertion_resume ascending outer l
  | InsertionFinished => Ok (l, InsertionFinished)
  end.

Definition finished (g : generator) : bool :=
  match g with
  | BubbleGenerator _ BubbleFinished => true
  | InsertionGenerator _ InsertionFinished => true
  | _ => false
  end.

Definition next (g : generator) (l : list entry)
    : result (list entry * generator * bool) :=
  match g with
  | BubbleGenerator ascending frame =>
      '(l', frame') ← bubble_next ascending frame l;
      let g' := BubbleGenerator ascending frame' in
      Ok (l', g', negb (finished g'))
  | InsertionGenerator ascending frame =>
      '(l', frame') ← insertion_next ascending frame l;
      let g' := InsertionGenerator ascending frame' in
      Ok (l', g', negb (finished g'))
  end.





(** ** Controller *)

Inductive algorithm : Set := BubbleSort | InsertionSort.

(** [sorting_algorithm(draw_info, ascending)]: a generator that has not
    run yet. *)
Definition call (f : algorithm) (ascending : bool) : generator :=
  match f with
  | BubbleSort => BubbleGenerator ascending BubbleNotStarted
  | InsertionSort => InsertionGenerator ascending InsertionNotStarted
  end.

(** The variables of the loop of [main].  [generators_created] counts the
    generator objects made so far.  [raw_data] and [draw_info.lst] are one
    list object: a sort that reorders the one reorders the other. *)
Record controller : Type := {
  run : bool;
  sorting : bool;
  ascending : bool;
  sorting_algorithm : algorithm;
  sorting_algo_name : string;
  sorting_algorithm_generator : option generator;
  generators_created : nat;
  draw_info : DrawInformation;
  raw_data : list entry
}.

Inductive key : Set := K_r | K_SPACE | K_a | K_d | K_i | K_b | K_other.

Inductive pygame_event : Set :=
| QUIT
| KEYDOWN (k : key)
| OTHER.

(** The body of [for event in pygame.event.get()].  [reload] is what
    [fetch_players_by_goals] or [load_offline_data] returns if it is
    called for this event. *)
Definition handle_event (reload : result (list entry)) (event : pygame_event)
    (c : controller) : result controller :=
  match event with
  | QUIT =>
      Ok {| run := false; sorting := sorting c; ascending := ascending c;
            sorting_algorithm := sorting_algorithm c;
            sorting_algo_name := sorting_algo_name c;
            sorting_algorithm_generator := sorting_algorithm_generator c;
            generators_created := generators_created c;
            draw_info := draw_info c; raw_data := raw_data c |}
  | OTHER => Ok c
  | KEYDOWN k =>
      match k, sorting c with
      | K_r, _ =>
          new_data ← reload;
          di ← set_list (draw_info c) new_data;
          Ok {| run := run c; sorting := false; ascending := ascending c;
                sorting_algorithm := sorting_algorithm c;
                sorting_algo_name := sorting_algo_name c;
                sorting_algorithm_generator := sorting_algorithm_generator c;
                generators_created := generators_created c;
                draw_info := di; raw_data := new_data |}
      | K_SPACE, false =>
          Ok {| run := run c; sorting := true; ascending := ascending c;
                sorting_algorithm := sorting_algorithm c;
                sorting_algo_name := sorting_algo_name c;
                sorting_algorithm_generator :=
                  Some (call (sorting_algorithm c) (ascending c));
                generators_created := S (generators_created c);
                draw_info := draw_info c; raw_data := raw_data c |}
      | K_a, false =>
          Ok {| run := run c; sorting := sorting c; ascending := true;
                sorting_algorithm := sorting_algorithm c;
                sorting_algo_name := sorting_algo_name c;
                sorting_algorithm_generator := sorting_algorithm_generator c;
                generators_created := generators_created c;
                draw_info := draw_info c; raw_data := raw_data c |}
      | K_d, false =>
          Ok {| run := run c; sorting := sorting c; ascending := false;
                sorting_algorithm := sorting_algorithm c;
                sorting_algo_name := sorting_algo_name c;
                sorting_algorithm_generator := sorting_algorithm_generator c;
                generators_created := generators_created c;
                draw_info := draw_info c; raw_data := raw_data c |}
      | K_i, false =>
          Ok {| run := run c; sorting := sorting c; ascending := ascending c;
                sorting_algorithm := InsertionSort;
                sorting_algo_name := "Insertion Sort";
                sorting_algorithm_generator := sorting_algorithm_generator c;
                generators_created := generators_created c;
                draw_info := draw_info c; raw_data := raw_data c |}
      | K_b, false =>
          Ok {| run := run c; sorting := sorting c; ascending := ascending c;
                sorting_algorithm := BubbleSort;
                sorting_algo_name := "Bubble Sort";
                sorting_algorithm_generator := sorting_algorithm_generator c;
                generators_created := generators_created c;
                draw_info := draw_info c; raw_data := raw_data c |}
      | _, _ => Ok c
      end
  end.

(** The first statement of the loop body: one [next] while sorting, a
    redraw otherwise.  [next(None)] is a [TypeError]. *)
Definition tick (c : controller) : result controller :=
  if sorting c then
    match sorting_algorithm_generator c with
    | None => Raise TypeError
    | Some g =>
        '(l, g', yielded) ← next g (lst (draw_info c));
        let di := draw_info c in
        Ok {| run := run c; sorting := yielded; ascending := ascending c;
              sorting_algorithm := sorting_algorithm c;
              sorting_algo_name := sorting_algo_name c;
              sorting_algorithm_generator := Some g';
              generators_created := generators_created c;
              draw_info :=
                {| width := width di; height := height di; lst := l;
                   min_val := min_val di; max_val := max_val di;
                   block_width := block_width di;
                   block_height := block_height di;
                   start_x := start_x di |};
              raw_data := l |}
    end
  else Ok c.

(** One pass of [while run]: the tick, then the events of
    [pygame.event.get()], each with the answer to a reload. *)
Fixpoint handle_events (events : list (pygame_event * result (list entry)))
    (c : controller) : result controller :=
  match events with
  | [] => Ok c
  | (event, reload) :: events' =>
      c' ← handle_event reload event c; handle_events events' c'
  end.

Definition loop_body (events : list (pygame_event * result (list entry)))
    (c : controller) : result controller :=
  c' ← tick c; handle_events events c'.

(** The variables at the first pass of the loop. *)
Definition initial_controller (di : DrawInformation) (data : list entry)
    : controller :=
  {| run := true; sorting := false; ascending := true;
     sorting_algorithm := BubbleSort; sorting_algo_name := "Bubble Sort";
     sorting_algorithm_generator := None; generators_created := 0;
     draw_info := di; raw_data := data |}.

(** A squad of twenty-one scorers on one page, the best of them last; and
    a server that is down. *)
Definition scorer (name : string) (g : Z) : player :=
  {| player_name := name;
     player_statistics :=
       [{| goals_total := Some g; games_appearences := Some 1 |}] |}.

Definition squad : list player :=
  replicate 20 (scorer "Reserve" 1) ++ [scorer "Striker" 9].

Definition squad_server : api :=
  {| teams_endpoint := λ _,
       {| status_code := 200;
          json := Ok (Some [{| team_id := 33; team_name := "United" |}]) |};
     players_endpoint := λ url,
       match url with
       | GetPlayers _ _ 1 => {| status_code := 200; json := Ok (Some squad) |}
       | _ => {| status_code := 200; json := Ok (Some []) |}
       end |}.

Definition server_down : api :=
  {| teams_endpoint := λ _,
       {| status_code := 500; json := Raise JSONDecodeError |};
     players_endpoint := λ _,
       {| status_code := 500; json := Raise JSONDecodeError |} |}.

(** The end of the set-up of [main]: no window when there is no data,
    otherwise the window of 1400 by 1000 and the first values of the
    loop variables. *)
Definition start (data : list entry) : option (result controller) :=
  if py_not data then None
  else Some (di ← DrawInformation_init 1400 1000 data;
             Ok (initial_controller di data)).

(** What holds of the loop variables at every pass: a generator exists
    while sorting, and [raw_data] is the list of [draw_info]. *)
Definition consistent (c : controller) : Prop :=
  (sorting c = true → is_Some (sorting_algorithm_generator c))
  ∧ raw_data c = lst (draw_info c).

(** ** Renderer: [draw_list] *)

(** Names are Python strings: a character of a [string] here stands for
    the code point of its number, below 256. *)

Definition colour : Type := Z * Z * Z.

Definition BLACK : colour := (0, 0, 0).

(** The code points below 256 that [str.split()] splits at: tab to
    carriage return, the four separators 28 to 31, the space, next line
    and the no-break space. *)
Definition py_isspace (a : Ascii.ascii) : bool :=
  let n := Ascii.N_of_ascii a in
  ((9 <=? n) && (n <=? 13) || (28 <=? n) && (n <=? 32)
   || (n =? 133) || (n =? 160))%N.











(** A name with no character that is not whitespace. *)
Fixpoint blank (s : string) : bool :=
  match s with
  | EmptyString => true
  | String a s' => py_isspace a && blank s'
  end.





(** [draw_info] after its list object has been reordered in place. *)
Definition reordered (di : DrawInformation) (l : list entry)
    : DrawInformation :=
  {| width := width di; height := height di; lst := l;
     min_val := min_val di; max_val := max_val di;
     block_width := block_width di; block_height := block_height di;
     start_x := start_x di |}.

(** ** The generators and the loop of [main], over time *)





(** A reload that returns data that can be shown: some entries, none with
    a blank name. *)
Definition shows (reload : result (list entry)) : Prop :=
  ∃ data, reload = Ok data ∧ (0 < length data)%nat
          ∧ Forall (λ e : entry, blank e.1 = false) data.


(** Event batches in which every reload returns data that can be shown,
    and batches without the reload key. *)
Definition reloads_show (events : list (pygame_event * result (list entry)))
    : Prop :=
  Forall (λ er, er.1 = KEYDOWN K_r → shows er.2) events.

Definition no_reload (events : list (pygame_event * result (list entry)))
    : Prop :=
  Forall (λ er, er.1 ≠ KEYDOWN K_r) events.

(** ** Offline data: [load_offline_data] *)

(** What [json.load] returns: [None], a Boolean, an integer, a float, a
    string, a list, or a dictionary, given by its items in order, one for
    each key. *)
#[warnings="-register-all"] Inductive json_value : Type :=
| JNone
| JBool (b : bool)
| JInt (z : Z)
| JFloat (x : spec_float)
| JStr (s : string)
| JList (l : list json_value)
| JDict (d : list (string * json_value)).

(** The exceptions of the loader: those above, and [KeyError]. *)
Inductive py_exn : Type :=
| Exn (e : exn)
| KeyError (key : string).

Inductive outcome (A : Type) : Type :=
| Return (a : A)
| Throw (e : py_exn).
Arguments Return {A} a.
Arguments Throw {A} e.

Global Instance outcome_ret : MRet outcome := fun _ a => Return a.
Global Instance outcome_bind : MBind outcome := fun _ _ f m =>
  match m with
  | Return a => f a
  | Throw e => Throw e
  end.

Fixpoint dict_get (key : string) (d : list (string * json_value))
    : option json_value :=
  match d with
  | [] => None
  | (k, v) :: d' => if String.eqb k key then Some v else dict_get key d'
  end.

(** [v[key]] for a string [key]: [KeyError] on a dictionary without the
    key, [TypeError] on anything that is not a dictionary. *)
Definition subscript (v : json_value) (key : string) : outcome json_value :=
  match v with
  | JDict d =>
      match dict_get key d with
      | Some x => Return x
      | None => Throw (KeyError key)
      end
  | _ => Throw (Exn TypeError)
  end.

Fixpoint characters (s : string) : list json_value :=
  match s with
  | EmptyString => []
  | String a s' => JStr (String a EmptyString) :: characters s'
  end.

(** What [for player in v] goes through: the elements of a list, the keys
    of a dictionary, the characters of a string; [TypeError] otherwise. *)
Definition iterate (v : json_value) : outcome (list json_value) :=
  match v with
  | JList l => Return l
  | JDict d => Return (JStr <$> d.*1)
  | JStr s => Return (characters s)
  | _ => Throw (Exn TypeError)
  end.

(** [[f(x) for x in l]], stopping at the first exception. *)
Fixpoint comprehension {A B} (f : A → outcome B) (l : list A)
    : outcome (list B) :=
  match l with
  | [] => Return []
  | x :: l' => y ← f x; ys ← comprehension f l'; Return (y :: ys)
  end.

(** [load_offline_data(filename)] on the document [data] that [json.load]
    reads from the file. *)
Definition load_offline_data (data : json_value)
    : outcome (list (json_value * json_value)) :=
  players ← subscript data "players";
  players ← iterate players;
  comprehension
    (λ player,
       name ← subscript player "name";
       goals ← subscript player "goals";
       Return (name, goals))
    players.

(** A pair of the loader as an entry, when it is a string and an integer. *)
Definition as_entry (p : json_value * json_value) : option entry :=
  match p with
  | (JStr name, JInt g) => Some (name, g)
  | _ => None
  end.

(** The file of a dataset: [{"players": [{"name": .., "goals": ..}, ..]}]. *)
Definition player_object (e : entry) : json_value :=
  JDict [("name"%string, JStr e.1); ("goals"%string, JInt e.2)].

Definition document (entries : list entry) : json_value :=
  JDict [("players"%string, JList (player_object <$> entries))].

(** A player of a file that has a name and goals. *)
Definition complete (player : json_value) : Prop :=
  ∃ d name g, player = JDict d
    ∧ dict_get "name" d = Some name ∧ dict_get "goals" d = Some g.

(** A file of twenty-five players, some without a goal. *)
Definition squad_entries : list entry :=
  replicate 12 ("Reserve"%string, 0) ++ replicate 12 ("Forward"%string, 4)
  ++ [("Striker"%string, 9)].

(** ** The set-up of [main] with the API *)

(** How the set-up ends when it raises nothing: with the message that no
    team matches, with the message that there is no data, or with the
    window open and the loop variables set. *)
Inductive setup : Type :=
| NoMatchingTeam
| NoData
| Window (c : controller).

Definition open_window (raw_data : list entry) : result setup :=
  match start raw_data with
  | None => Ok NoData
  | Some r => c ← r; Ok (Window c)
  end.

(** The online branch of [main], from the two answers of the user on. *)
Definition main_online (fuel : nat) (server : api)
    (team_name season_year : string) (log : list request)
    : option (result setup * list request) :=
  let '(results, log) := search_team server team_name log in
  match results with
  | Raise e => Some (Raise e, log)
  | Ok [] => Some (Ok NoMatchingTeam, log)
  | Ok (first :: _) =>
      let team_id := team_id first in
      match fetch_players_by_goals fuel server team_id season_year log with
      | None => None
      | Some (Raise e, log) => Some (Raise e, log)
      | Some (Ok raw_data, log) => Some (open_window raw_data, log)
      end
  end.

(** Two clubs of one name, the second with the squad; the first has no
    player with a goal. *)
Definition two_clubs_server : api :=
  {| teams_endpoint := λ _,
       {| status_code := 200;
          json := Ok (Some [{| team_id := 7; team_name := "United" |};
                            {| team_id := 33; team_name := "United" |}]) |};
     players_endpoint := λ url,
       match url with
       | GetPlayers 33 _ 1 => {| status_code := 200; json := Ok (Some squad) |}
       | GetPlayers 7 _ 1 =>
           {| status_code := 200; json := Ok (Some [scorer "Keeper" 0]) |}
       | _ => {| status_code := 200; json := Ok (Some []) |}
       end |}.

(** ** Pairs out of order *)



(** * Proofs *)

Example bubble_sort_smith_jones_lee :
  ∃ tr, bubble_sort true smith_jones_lee
        = Ok ([("Lee"%string, 1); ("Smith"%string, 3); ("Jones"%string, 10)], tr)
        ∧ count is_swap tr = 2%nat ∧ count is_cmp tr = 3%nat.
Proof. eexists. split; [vm_compute; reflexivity|]. split; reflexivity. Qed.

Example insertion_sort_smith_jones_lee :
  ∃ tr, insertion_sort false smith_jones_lee
        = Ok ([("Jones"%string, 10); ("Smith"%string, 3); ("Lee"%string, 1)], tr)
        ∧ count is_yield tr = 2%nat.
Proof. eexists. split; [vm_compute; reflexivity|]. reflexivity. Qed.



Global Instance ord_trans asc : Transitive (ord asc).
Proof. intros x y z. unfold ord, ordered. destruct asc; lia. Qed.

Global Instance ord_refl asc : Reflexive (ord asc).
Proof. intros x. unfold ord, ordered. destruct asc; lia. Qed.



(** ** The loops and the functions on lists, in a direction *)

Section Direction.
Context (asc : bool).






(** ** Bubble sort: what the passes do to the list *)











(** ** Bubble sort: the trace *)










(** ** Insertion sort: the loops and the insertions *)








(** ** Insertion sort: what the insertions do to the list *)









(** ** Insertion sort: the trace *)







End Direction.

(** ** The generators and the complete runs *)

Lemma bind_Ok {A B} (m : result A) (f : A → result B) b :
  m ≫= f = Ok b → ∃ a, m = Ok a ∧ f a = Ok b.
Proof. destruct m as [a|e]; [|done]. intros H. by exists a. Qed.






Lemma count_yield_outer i tr :
  count is_yield (Outer i :: tr) = count is_yield tr.
Proof. done. Qed.






(** ** Visualization state *)

Lemma py_min_max_values (vals : list Z) :
  vals ≠ [] →
  ∃ mn mx, py_min vals = Ok mn ∧ py_max vals = Ok mx ∧ mn ≤ mx.
Proof.
  destruct vals as [|v vals]; [done|]. intros _. simpl.
  do 2 eexists. split_and!; [done..|].
  assert (H : ∀ l a b, a ≤ b → foldl Z.min a l ≤ foldl Z.max b l).
  { induction l as [|x l IH]; intros a b Hab; simpl; [done|].
    apply IH. lia. }
  by apply H.
Qed.


(** In the window of the program, 1400 by 1000, rounding the double
    quotient gives what [py_round_div] and [py_floor_div] give, for every
    dataset of up to 3000 entries and every range of goal counts up to
    3000. *)
Lemma round_of_double_quotient (n : nat) :
  (1 ≤ n ≤ 3000)%nat →
  float_round (float_truediv (float_of_int (1400 - SIDE_PAD))
                 (float_of_int (Z.of_nat n)))
  = Some (round_half_even (1400 - SIDE_PAD) (Z.of_nat n)).
Proof.
  intros Hn.
  assert (H : forallb
            (λ n, bool_decide
               (float_round (float_truediv (float_of_int (1400 - SIDE_PAD))
                               (float_of_int (Z.of_nat n)))
                = Some (round_half_even (1400 - SIDE_PAD) (Z.of_nat n))))
            (seq 1 3000) = true) by (vm_compute; reflexivity).
  rewrite forallb_forall in H.
  eapply bool_decide_eq_true_1, H, in_seq. lia.
Qed.

Lemma floor_of_double_quotient (d : nat) :
  (1 ≤ d ≤ 3000)%nat →
  float_floor (float_truediv (float_of_int (1000 - TOP_PAD - BOTTOM_PAD))
                 (float_of_int (Z.of_nat d)))
  = Some ((1000 - TOP_PAD - BOTTOM_PAD) / Z.of_nat d).
Proof.
  intros Hd.
  assert (H : forallb
            (λ d, bool_decide
               (float_floor
                  (float_truediv (float_of_int (1000 - TOP_PAD - BOTTOM_PAD))
                     (float_of_int (Z.of_nat d)))
                = Some ((1000 - TOP_PAD - BOTTOM_PAD) / Z.of_nat d)))
            (seq 1 3000) = true) by (vm_compute; reflexivity).
  rewrite forallb_forall in H.
  eapply bool_decide_eq_true_1, H, in_seq. lia.
Qed.

(** ** The sort visualizer: the runs *)







(** ** The geometry of [set_list] *)

Lemma set_list_nonempty (self : DrawInformation) (new_lst : list entry) :
  (0 < length new_lst)%nat →
  ∃ mn mx, mn ≤ mx
    ∧ py_min ((λ val, val.2) <$> new_lst) = Ok mn
    ∧ py_max ((λ val, val.2) <$> new_lst) = Ok mx
    ∧ set_list self new_lst
      = Ok {| width := width self; height := height self; lst := new_lst;
              min_val := mn; max_val := mx;
              block_width :=
                round_half_even (width self - SIDE_PAD)
                  (Z.of_nat (length new_lst));
              block_height :=
                (height self - TOP_PAD - BOTTOM_PAD)
                / Z.max 1 (py_or (mx - mn) 1);
              start_x := SIDE_PAD / 2 |}.
Proof.
  intros Hlen.
  destruct (py_min_max_values ((λ val, val.2) <$> new_lst))
    as (mn & mx & Hmn & Hmx & Hle).
  { destruct new_lst; [simpl in Hlen; lia|done]. }
  exists mn, mx. split_and!; [done..|].
  unfold set_list. rewrite Hmn, Hmx. cbn [mbind result_bind].
  unfold py_round_div, py_floor_div.
  destruct (Z.eqb_spec (Z.of_nat (length new_lst)) 0) as [|_]; [lia|].
  destruct (Z.eqb_spec (Z.max 1 (py_or (mx - mn) 1)) 0) as [|_]; [lia|].
  done.
Qed.






(** ** The data source adapter *)

Lemma foldl_add_player pls : ∀ gl,
  foldl add_player gl pls = gl ++ omap qualifies pls.
Proof.
  induction pls as [|p pls IH]; intros gl; simpl.
  - by rewrite app_nil_r.
  - rewrite IH. unfold add_player, qualifies.
    destruct ((total_goals p >? 0) && (total_appearances p >? 0)); [|done].
    by rewrite <- app_assoc.
Qed.

(** The loop meets [k] pages it goes on after and then one it stops at. *)
Lemma fetch_loop_spec server team season k : ∀ page gl log fuel,
  (∀ p, (page ≤ p < page + k)%nat →
        continues (players_endpoint server (GetPlayers team season p)) = true) →
  breaks (players_endpoint server (GetPlayers team season (page + k))) = true →
  (k < fuel)%nat →
  fetch_loop fuel server team season page gl log
  = Some (Ok (gl ++ omap qualifies
                      (flat_map
                         (λ p, page_players
                                 (players_endpoint server
                                    (GetPlayers team season p)))
                         (seq page k))),
          log ++ (GetPlayers team season <$> seq page (S k))).
Proof.
  induction k as [|k IH]; intros page gl log fuel Hcont Hbreak Hfuel;
    (destruct fuel as [|fuel]; [lia|]); cbn [fetch_loop requests_get].
  - rewrite Nat.add_0_r in Hbreak. unfold breaks in Hbreak.
    simpl. rewrite app_nil_r.
    destruct (status_code _ =? 200); simpl in *; [|done].
    destruct (json _) as [data|e]; [|done]. rewrite Hbreak. simpl.
    by destruct (page =? 1)%nat.
  - pose proof (Hcont page ltac:(lia)) as Hpage. unfold continues in Hpage.
    apply andb_prop in Hpage as [Hstatus Hjson]. rewrite Hstatus.
    cbn [negb]. unfold page_players. cbn [seq flat_map].
    destruct (json _) as [data|e]; [|done].
    apply negb_true_iff in Hjson. rewrite Hjson. cbn [andb].
    rewrite Nat.add_1_r.
    rewrite IH; [|intros p Hp; apply Hcont; lia
                 |by replace (S page + k)%nat with (page + S k)%nat by lia
                 |lia].
    rewrite foldl_add_player, omap_app, <- !app_assoc. done.
Qed.

Lemma fetch_players_by_goals_spec server team season stop fuel log :
  (∀ p, (1 ≤ p < stop)%nat →
        continues (players_endpoint server (GetPlayers team season p)) = true) →
  breaks (players_endpoint server (GetPlayers team season stop)) = true →
  (1 ≤ stop ≤ fuel)%nat →
  fetch_players_by_goals fuel server team season log
  = Some (Ok (take 20 (omap qualifies (encountered server team season stop))),
          log ++ (GetPlayers team season <$> seq 1 stop)).
Proof.
  intros Hcont Hbreak Hstop. unfold fetch_players_by_goals, encountered.
  rewrite (fetch_loop_spec server team season (stop - 1));
    [|intros p Hp; apply Hcont; lia
     |by replace (1 + (stop - 1))%nat with stop by lia
     |lia].
  by replace (S (stop - 1)) with stop by lia.
Qed.




(** When the server answers the first page with an error status the call
    returns the empty list. *)
Lemma fetch_players_server_down fuel team season log :
  fetch_players_by_goals (S fuel) server_down team season log
  = Some (Ok [], log ++ [GetPlayers team season 1]).
Proof. reflexivity. Qed.

(** C8.  [search_team] issues exactly one request, the team search,
    whatever the response.  It returns the empty list, raising nothing, for
    every response whose status is not 200, whatever its body, and for every
    200 response whose JSON has no ["response"] field or an empty one. *)
Theorem search_team_no_match (server : api) (name : string)
    (log : list request) :
  let response := teams_endpoint server (GetTeams name) in
  (search_team server name log).2 = log ++ [GetTeams name]
  ∧ (status_code response ≠ 200 → (search_team server name log).1 = Ok [])
  ∧ (status_code response = 200 →
     json response = Ok None ∨ json response = Ok (Some []) →
     (search_team server name log).1 = Ok []).
Proof.
  intros response. unfold search_team, requests_get. fold response.
  split_and!.
  - destruct (status_code response =? 200); simpl; [|done].
    destruct (json response) as [data|e]; [|done].
    by destruct (py_not (get_response data)).
  - intros Hs. apply Z.eqb_neq in Hs. by rewrite Hs.
  - intros Hs Hj. apply Z.eqb_eq in Hs. rewrite Hs. simpl.
    by destruct Hj as [-> | ->].
Qed.

Lemma search_team_no_match_witness :
  search_team server_down "Chelsea" [] = (Ok [], [GetTeams "Chelsea"]).
Proof.
  pose proof (search_team_no_match server_down "Chelsea" []) as (Hlog & Herr & _).
  destruct (search_team server_down "Chelsea" []) as [teams log] eqn:Hcall.
  simpl in Hlog, Herr. rewrite Hlog, Herr; [reflexivity|].
  simpl. lia.
Defined.

(** ** The controller *)

(** While sorting, every key but the reload key leaves all loop variables
    as they are: direction, algorithm and generator among them, and no
    generator is made. *)
Lemma sorting_ignores_keys reload k c :
  sorting c = true → k ≠ K_r →
  handle_event reload (KEYDOWN k) c = Ok c.
Proof. intros Hs Hk. unfold handle_event. rewrite Hs. by destruct k. Qed.

(** When idle the keys are honored. *)
Lemma idle_honors_keys reload c :
  sorting c = false →
  (∃ c', handle_event reload (KEYDOWN K_a) c = Ok c' ∧ ascending c' = true)
  ∧ (∃ c', handle_event reload (KEYDOWN K_d) c = Ok c' ∧ ascending c' = false)
  ∧ (∃ c', handle_event reload (KEYDOWN K_i) c = Ok c'
           ∧ sorting_algorithm c' = InsertionSort)
  ∧ (∃ c', handle_event reload (KEYDOWN K_b) c = Ok c'
           ∧ sorting_algorithm c' = BubbleSort)
  ∧ (∃ c', handle_event reload (KEYDOWN K_SPACE) c = Ok c'
           ∧ sorting c' = true
           ∧ sorting_algorithm_generator c'
             = Some (call (sorting_algorithm c) (ascending c))
           ∧ generators_created c' = S (generators_created c)).
Proof.
  intros Hs. unfold handle_event. rewrite Hs.
  split_and!; eexists; split_and!; done.
Qed.


(** The set-up never lets an empty dataset reach [set_list]. *)
Lemma start_guards_no_data data :
  (data = [] ∧ start data = None)
  ∨ (∃ di, DrawInformation_init 1400 1000 data = Ok di
           ∧ start data = Some (Ok (initial_controller di data))).
Proof.
  destruct data as [|e data]; [by left|]. right.
  destruct (set_list_nonempty
              {| width := 1400; height := 1000; lst := []; min_val := 0;
                 max_val := 0; block_width := 0; block_height := 0;
                 start_x := 0 |} (e :: data))
    as (mn & mx & _ & _ & _ & Hset); [simpl; lia|].
  eexists. split; [exact Hset|]. unfold start, DrawInformation_init.
  cbn [py_not]. by rewrite Hset.
Qed.

Lemma set_list_lst di new_data di' :
  set_list di new_data = Ok di' → lst di' = new_data.
Proof.
  unfold set_list. intros (mn & _ & H)%bind_Ok.
  apply bind_Ok in H as (mx & _ & H). apply bind_Ok in H as (bw & _ & H).
  apply bind_Ok in H as (bh & _ & H). by simplify_eq.
Qed.

Lemma handle_event_consistent reload event c c' :
  consistent c → handle_event reload event c = Ok c' → consistent c'.
Proof.
  intros Hc H. unfold handle_event in H.
  destruct event as [|k|];
    [destruct Hc; by simplify_eq| |by simplify_eq].
  destruct k.
  - apply bind_Ok in H as (new_data & _ & H).
    apply bind_Ok in H as (di & Hset%set_list_lst & H). simplify_eq.
    by split.
  - destruct (sorting c) eqn:Hs; simplify_eq; [done|].
    destruct Hc. split; [by eexists|done].
  - destruct (sorting c) eqn:Hs; simplify_eq; [done|].
    destruct Hc. by split.
  - destruct (sorting c) eqn:Hs; simplify_eq; [done|].
    destruct Hc. by split.
  - destruct (sorting c) eqn:Hs; simplify_eq; [done|].
    destruct Hc. by split.
  - destruct (sorting c) eqn:Hs; simplify_eq; [done|].
    destruct Hc. by split.
  - by destruct (sorting c); simplify_eq.
Qed.

Lemma tick_consistent c c' : consistent c → tick c = Ok c' → consistent c'.
Proof.
  intros Hc H. unfold tick in H.
  destruct (sorting c); [|by simplify_eq].
  destruct (sorting_algorithm_generator c) as [g|]; [|done].
  apply bind_Ok in H as ([[l g'] yielded] & _ & H). simplify_eq.
  split; [by eexists|done].
Qed.

(** The window on Smith, Jones and Lee: the start key, then three passes
    of the loop, two that yield at a swap and one that ends the sort. *)
Example controller_sorts_smith_jones_lee :
  ∃ c0, start smith_jones_lee = Some (Ok c0)
    ∧ (c ← loop_body [(KEYDOWN K_SPACE, Ok [])] c0;
       Ok (sorting c, lst (draw_info c)))
      = Ok (true, smith_jones_lee)
    ∧ (c ← loop_body [(KEYDOWN K_SPACE, Ok [])] c0;
       c ← loop_body [] c; c ← loop_body [] c;
       Ok (sorting c, lst (draw_info c)))
      = Ok (true, [("Lee"%string, 1); ("Smith"%string, 3); ("Jones"%string, 10)])
    ∧ (c ← loop_body [(KEYDOWN K_SPACE, Ok [])] c0;
       c ← loop_body [] c; c ← loop_body [] c; c ← loop_body [] c;
       Ok (sorting c, lst (draw_info c)))
      = Ok (false, [("Lee"%string, 1); ("Smith"%string, 3); ("Jones"%string, 10)]).
Proof. eexists. split; [reflexivity|]. by vm_compute. Qed.

(** C9, at the input where the code breaks it.  The reload key is pressed
    while the server is down: [fetch_players_by_goals] returns the empty
    list, [set_list] raises [ValueError] on it, and the event is not
    handled to its end, in either state: the controller does not become
    idle with a rebuilt dataset, the exception ends the program. *)
Theorem reload_without_data_raises (c : controller) (fuel : nat) (team : Z)
    (season : string) (log : list request) :
  fetch_players_by_goals (S fuel) server_down team season log
  = Some (Ok [], log ++ [GetPlayers team season 1])
  ∧ set_list (draw_info c) [] = Raise ValueError
  ∧ handle_event (Ok []) (KEYDOWN K_r) c = Raise ValueError.
Proof.
  split; [reflexivity|]. split; [reflexivity|].
  unfold handle_event. by destruct (sorting c).
Qed.

(** * The renderer *)


























(** * The geometry and the bars *)





(** What [set_list] has computed when it returns. *)
Lemma set_list_Ok self (l : list entry) di :
  set_list self l = Ok di →
  (0 < length l)%nat
  ∧ py_min ((λ val : entry, val.2) <$> l) = Ok (min_val di)
  ∧ py_max ((λ val : entry, val.2) <$> l) = Ok (max_val di)
  ∧ min_val di ≤ max_val di
  ∧ di = {| width := width self; height := height self; lst := l;
            min_val := min_val di; max_val := max_val di;
            block_width :=
              round_half_even (width self - SIDE_PAD) (Z.of_nat (length l));
            block_height :=
              (height self - TOP_PAD - BOTTOM_PAD)
              / Z.max 1 (py_or (max_val di - min_val di) 1);
            start_x := SIDE_PAD / 2 |}.
Proof.
  intros H.
  assert (Hlen : (0 < length l)%nat).
  { destruct l; [done|simpl; lia]. }
  destruct (set_list_nonempty self l Hlen) as (mn & mx & Hle & Hmn & Hmx & Hset).
  rewrite Hset in H. injection H as <-. by cbn.
Qed.






(** * The generators, step by step *)










(** * The loop of [main] *)













Lemma reordered_reordered di l l' :
  reordered (reordered di l) l' = reordered di l'.
Proof. done. Qed.

Lemma no_reload_shows events : no_reload events → reloads_show events.
Proof.
  unfold no_reload, reloads_show. intros H.
  eapply list.Forall_impl; [exact H|]. intros er Hne Heq. by destruct Hne.
Qed.





(** * The animation of a sort *)










(** * The data source adapter, further *)

Lemma fetch_loop_forever server team season fuel : ∀ page gl log,
  (∀ p, (page ≤ p)%nat →
        continues (players_endpoint server (GetPlayers team season p)) = true) →
  fetch_loop fuel server team season page gl log = None.
Proof.
  induction fuel as [|fuel IH]; intros page gl log Hcont; [done|].
  cbn [fetch_loop requests_get].
  pose proof (Hcont page ltac:(lia)) as Hpage. unfold continues in Hpage.
  apply andb_prop in Hpage as [Hstatus Hjson]. rewrite Hstatus. cbn [negb].
  destruct (json _) as [data|e]; [|done].
  apply negb_true_iff in Hjson. rewrite Hjson. cbn [andb].
  apply IH. intros p Hp. apply Hcont. lia.
Qed.

Lemma fetch_loop_raises server team season e k : ∀ page gl log fuel,
  (∀ p, (page ≤ p < page + k)%nat →
        continues (players_endpoint server (GetPlayers team season p)) = true) →
  status_code (players_endpoint server (GetPlayers team season (page + k)))
  = 200 →
  json (players_endpoint server (GetPlayers team season (page + k)))
  = Raise e →
  (k < fuel)%nat →
  fetch_loop fuel server team season page gl log
  = Some (Raise e, log ++ (GetPlayers team season <$> seq page (S k))).
Proof.
  induction k as [|k IH]; intros page gl log fuel Hcont Hstatus Hjson Hfuel;
    (destruct fuel as [|fuel]; [lia|]); cbn [fetch_loop requests_get].
  - rewrite Nat.add_0_r in Hstatus, Hjson. by rewrite Hstatus, Hjson.
  - pose proof (Hcont page ltac:(lia)) as Hpage. unfold continues in Hpage.
    apply andb_prop in Hpage as [Hs Hj]. rewrite Hs. cbn [negb].
    destruct (json (players_endpoint server (GetPlayers team season page)))
      as [data|e']; [|done].
    apply negb_true_iff in Hj. rewrite Hj. cbn [andb].
    rewrite Nat.add_1_r.
    rewrite IH; [|intros p Hp; apply Hcont; lia
                 |by replace (S page + k)%nat with (page + S k)%nat by lia
                 |by replace (S page + k)%nat with (page + S k)%nat by lia
                 |lia].
    cbn [seq fmap list_fmap]. by rewrite <- app_assoc.
Qed.

(** X9.  The requests of [fetch_players_by_goals].  When pages
    [1 .. stop - 1] have players and page [stop] is an error or empty, the
    call issues exactly [stop] requests: pages 1, 2, .., [stop] in this
    order, each for the team and the season it was given, and none after
    the page that stopped it. *)
Theorem fetch_requests_each_page_once (server : api) (team : Z)
    (season : string) (stop fuel : nat) (log : list request) :
  (∀ p, (1 ≤ p < stop)%nat →
        continues (players_endpoint server (GetPlayers team season p)) = true) →
  breaks (players_endpoint server (GetPlayers team season stop)) = true →
  (1 ≤ stop ≤ fuel)%nat →
  ∃ goal_list log',
    fetch_players_by_goals fuel server team season log
    = Some (Ok goal_list, log')
    ∧ log' = log ++ (GetPlayers team season <$> seq 1 stop)
    ∧ length log' = (length log + stop)%nat.
Proof.
  intros Hcont Hbreak Hstop. do 2 eexists.
  split; [by apply fetch_players_by_goals_spec|]. split; [done|].
  by rewrite length_app, length_fmap, length_seq.
Qed.

Lemma fetch_requests_each_page_once_witness :
  ∃ goal_list,
    fetch_players_by_goals 5 squad_server 33 "2024" []
    = Some (Ok goal_list, [GetPlayers 33 "2024" 1; GetPlayers 33 "2024" 2]).
Proof.
  destruct (fetch_requests_each_page_once squad_server 33 "2024"%string
              2%nat 5%nat [])
    as (goal_list & log' & Hrun & -> & _).
  - intros p Hp. assert (p = 1%nat) as -> by lia. reflexivity.
  - reflexivity.
  - lia.
  - exists goal_list. exact Hrun.
Defined.

(** X10.  [fetch_players_by_goals] has no page limit: against a server
    that answers every page with a list of players that is not empty, the
    loop is still running after any number of pages. *)
Theorem fetch_never_stops_on_endless_pages (server : api) (team : Z)
    (season : string) (fuel : nat) (log : list request) :
  (∀ p, (1 ≤ p)%nat →
        continues (players_endpoint server (GetPlayers team season p)) = true) →
  fetch_players_by_goals fuel server team season log = None.
Proof.
  intros Hcont. unfold fetch_players_by_goals.
  by rewrite fetch_loop_forever.
Qed.

Lemma fetch_never_stops_on_endless_pages_witness :
  fetch_players_by_goals 1000
    {| teams_endpoint := teams_endpoint squad_server;
       players_endpoint := λ _, {| status_code := 200;
                                   json := Ok (Some [scorer "Striker" 9]) |} |}
    33 "2024" [] = None.
Proof.
  apply fetch_never_stops_on_endless_pages. intros p Hp. reflexivity.
Defined.

(** X11.  A page that is not JSON loses the pages before it.  When pages
    [1 .. k] have players and page [k + 1] has status 200 and a body that
    [response.json()] cannot parse, [fetch_players_by_goals] raises that
    exception after [k + 1] requests: the players gathered from the first
    [k] pages are not returned.  (An error status on the same page would
    have returned them.) *)
Theorem fetch_raises_on_unparsable_page (server : api) (team : Z)
    (season : string) (k fuel : nat) (log : list request) (e : exn) :
  (∀ p, (1 ≤ p ≤ k)%nat →
        continues (players_endpoint server (GetPlayers team season p)) = true) →
  status_code (players_endpoint server (GetPlayers team season (S k))) = 200 →
  json (players_endpoint server (GetPlayers team season (S k))) = Raise e →
  (k < fuel)%nat →
  fetch_players_by_goals fuel server team season log
  = Some (Raise e, log ++ (GetPlayers team season <$> seq 1 (S k))).
Proof.
  intros Hcont Hstatus Hjson Hfuel. unfold fetch_players_by_goals.
  by rewrite (fetch_loop_raises server team season e k);
    [|intros p Hp; apply Hcont; lia|..].
Qed.

Lemma fetch_raises_on_unparsable_page_witness :
  fetch_players_by_goals 5
    {| teams_endpoint := teams_endpoint squad_server;
       players_endpoint := λ url,
         match url with
         | GetPlayers _ _ 1 => {| status_code := 200; json := Ok (Some squad) |}
         | _ => {| status_code := 200; json := Raise JSONDecodeError |}
         end |}
    33 "2024" []
  = Some (Raise JSONDecodeError,
          [GetPlayers 33 "2024" 1; GetPlayers 33 "2024" 2]).
Proof.
  apply (fetch_raises_on_unparsable_page _ 33 "2024"%string 1%nat 5%nat []).
  - intros p Hp. assert (p = 1%nat) as -> by lia. reflexivity.
  - reflexivity.
  - reflexivity.
  - lia.
Defined.

(** X12.  [search_team] on a success.  A 200 response whose ["response"]
    list is not empty is returned as it is, all matches in the order of the
    server; a 200 response whose body is not JSON raises the exception of
    [response.json()].  Either way exactly the one request is issued. *)
Theorem search_team_success (server : api) (name : string)
    (log : list request) :
  status_code (teams_endpoint server (GetTeams name)) = 200 →
  (∀ teams, json (teams_endpoint server (GetTeams name)) = Ok (Some teams) →
            teams ≠ [] →
            search_team server name log = (Ok teams, log ++ [GetTeams name]))
  ∧ (∀ e, json (teams_endpoint server (GetTeams name)) = Raise e →
          search_team server name log = (Raise e, log ++ [GetTeams name])).
Proof.
  intros Hs. unfold search_team, requests_get. rewrite Hs. cbn [Z.eqb negb].
  split.
  - intros teams -> Hne. cbn [get_response default].
    by destruct teams.
  - by intros e ->.
Qed.

Lemma search_team_success_witness :
  search_team squad_server "United" []
  = (Ok [{| team_id := 33; team_name := "United" |}], [GetTeams "United"]).
Proof.
  apply (search_team_success squad_server "United" []);
    [reflexivity|reflexivity|discriminate].
Defined.

(** * Offline data *)

Lemma load_player_complete player :
  complete player →
  ∃ name g,
    (name ← subscript player "name"; goals ← subscript player "goals";
     Return (name, goals)) = Return (name, g)
    ∧ subscript player "name" = Return name
    ∧ subscript player "goals" = Return g.
Proof.
  intros (d & name & g & -> & Hn & Hg). exists name, g.
  cbn [subscript]. rewrite Hn, Hg. by cbn.
Qed.

Lemma comprehension_complete players :
  Forall complete players →
  ∃ pairs,
    comprehension
      (λ player, name ← subscript player "name";
                 goals ← subscript player "goals"; Return (name, goals))
      players = Return pairs
    ∧ Forall2 (λ player pair,
                 subscript player "name" = Return pair.1
                 ∧ subscript player "goals" = Return pair.2) players pairs.
Proof.
  induction 1 as [|player players Hp _ (pairs & IH & Hall)].
  - by exists [].
  - destruct (load_player_complete player Hp) as (name & g & Hload & Hn & Hg).
    exists ((name, g) :: pairs). cbn [comprehension]. rewrite Hload.
    cbn [mbind outcome_bind]. rewrite IH. cbn [mbind outcome_bind].
    split; [done|]. by constructor.
Qed.

(** X13.  [load_offline_data] keeps every player.  For a document whose
    ["players"] is a list of dictionaries that each have a ["name"] and
    ["goals"], the loader returns one pair for every player, in the order
    of the file, with the values of these two keys as they are: no player
    is left out, whatever its goals, and the list is not cut at 20 as the
    list of the API is.  In particular the file written for a list of
    entries loads to exactly that list. *)
Theorem load_offline_data_keeps_every_player :
  (∀ d players,
     dict_get "players" d = Some (JList players) →
     Forall complete players →
     ∃ pairs, load_offline_data (JDict d) = Return pairs
       ∧ length pairs = length players
       ∧ Forall2 (λ player pair,
                    subscript player "name" = Return pair.1
                    ∧ subscript player "goals" = Return pair.2)
           players pairs)
  ∧ (∀ entries,
       ∃ pairs, load_offline_data (document entries) = Return pairs
         ∧ mapM as_entry pairs = Some entries).
Proof.
  split.
  - intros d players Hd Hplayers. unfold load_offline_data.
    cbn [subscript]. rewrite Hd. cbn [mbind outcome_bind iterate].
    destruct (comprehension_complete players Hplayers) as (pairs & -> & Hall).
    exists pairs. split; [done|]. split; [|done].
    symmetry. by eapply Forall2_length.
  - intros entries. unfold load_offline_data, document.
    cbn [subscript dict_get String.eqb Ascii.eqb Bool.eqb].
    cbn [mbind outcome_bind iterate].
    induction entries as [|[name g] entries (pairs & IH & Hmap)].
    + by exists [].
    + exists ((JStr name, JInt g) :: pairs).
      cbn [fmap list_fmap comprehension]. cbn [fmap list_fmap] in IH.
      rewrite IH. split; [done|].
      cbn. cbn in Hmap. by rewrite Hmap.
Qed.

Lemma load_offline_data_keeps_every_player_witness :
  ∃ pairs, load_offline_data (document squad_entries) = Return pairs
    ∧ length pairs = 25%nat.
Proof.
  destruct (proj1 load_offline_data_keeps_every_player
              [("players"%string, JList (player_object <$> squad_entries))]
              (player_object <$> squad_entries))
    as (pairs & Hload & Hlen & _).
  - reflexivity.
  - repeat constructor; by eexists _, _, _.
  - exists pairs. split; [exact Hload|]. rewrite Hlen. reflexivity.
Defined.

Lemma comprehension_app {A B} (f : A → outcome B) l1 l2 ys e :
  comprehension f l1 = Return ys →
  comprehension f l2 = Throw e →
  comprehension f (l1 ++ l2) = Throw e.
Proof.
  revert ys. induction l1 as [|x l1 IH]; intros ys H1 H2; [done|].
  cbn [app comprehension] in *.
  destruct (f x) as [y|e']; cbn [mbind outcome_bind] in *; [|done].
  destruct (comprehension f l1) as [ys'|e'] eqn:Hl1; [|done].
  by rewrite (IH ys').
Qed.

Lemma load_stops_at good bad rest d e :
  dict_get "players" d = Some (JList (good ++ bad :: rest)) →
  Forall complete good →
  (name ← subscript bad "name"; goals ← subscript bad "goals";
   Return (name, goals)) = Throw e →
  load_offline_data (JDict d) = Throw e.
Proof.
  intros Hd Hgood Hbad. unfold load_offline_data.
  cbn [subscript]. rewrite Hd. cbn [mbind outcome_bind iterate].
  destruct (comprehension_complete good Hgood) as (pairs & Hpairs & _).
  eapply comprehension_app; [exact Hpairs|].
  cbn [comprehension]. by rewrite Hbad.
Qed.

(** X14.  What [load_offline_data] does with a file of another shape.  It
    raises [TypeError] when the document is not a dictionary and [KeyError]
    when the dictionary has no ["players"].  One player that is not
    a dictionary ([TypeError]), or has no ["name"] or no ["goals"]
    ([KeyError] of that key, ["name"] first), fails the whole load, however
    many complete players stand before it: none of them is returned.
    When ["players"] is a non-empty dictionary or string the loop goes
    through its keys or characters and raises [TypeError] at the first;
    a number, a Boolean or [None] there is not iterable.  An empty list,
    dictionary or string of players loads as the empty list. *)
Theorem load_offline_data_malformed :
  (∀ data, (∀ d, data ≠ JDict d) →
     load_offline_data data = Throw (Exn TypeError))
  ∧ (∀ d, dict_get "players" d = None →
       load_offline_data (JDict d) = Throw (KeyError "players"))
  ∧ (∀ d good bad rest,
       dict_get "players" d = Some (JList (good ++ bad :: rest)) →
       Forall complete good →
       ((∀ pd, bad ≠ JDict pd) →
          load_offline_data (JDict d) = Throw (Exn TypeError))
       ∧ (∀ pd, bad = JDict pd → dict_get "name" pd = None →
            load_offline_data (JDict d) = Throw (KeyError "name"))
       ∧ (∀ pd, bad = JDict pd → dict_get "name" pd ≠ None →
            dict_get "goals" pd = None →
            load_offline_data (JDict d) = Throw (KeyError "goals")))
  ∧ (∀ d players,
       dict_get "players" d = Some players →
       match players with
       | JList [] | JDict [] | JStr EmptyString =>
           load_offline_data (JDict d) = Return []
       | JList _ => True
       | _ => load_offline_data (JDict d) = Throw (Exn TypeError)
       end).
Proof.
  split; [|split; [|split]].
  - intros data Hdata. destruct data; try done. by destruct (Hdata d).
  - intros d Hd. unfold load_offline_data. cbn [subscript]. by rewrite Hd.
  - intros d good bad rest Hd Hgood. split; [|split].
    + intros Hbad. eapply load_stops_at; [done..|].
      destruct bad; try done. by destruct (Hbad d0).
    + intros pd -> Hn. eapply load_stops_at; [done..|].
      cbn [subscript]. by rewrite Hn.
    + intros pd -> Hn Hg. eapply load_stops_at; [done..|].
      cbn [subscript]. destruct (dict_get "name" pd); [|done].
      cbn [mbind outcome_bind]. by rewrite Hg.
  - intros d players Hd. unfold load_offline_data. cbn [subscript].
    rewrite Hd. cbn [mbind outcome_bind].
    destruct players as [| | | |s|l|pd]; try done.
    + by destruct s.
    + by destruct l.
    + by destruct pd as [|[k v] pd].
Qed.

Lemma load_offline_data_malformed_witness :
  load_offline_data
    (JDict [("players"%string,
             JList ((player_object <$> squad_entries)
                    ++ [JDict [("name"%string, JStr "Keeper")]]))])
  = Throw (KeyError "goals").
Proof.
  destruct load_offline_data_malformed as (_ & _ & H & _).
  eapply (H _ (player_object <$> squad_entries) _ []).
  - reflexivity.
  - repeat constructor; by eexists _, _, _.
  - reflexivity.
  - done.
  - reflexivity.
Defined.

(** * The set-up of [main] *)

Lemma search_team_log server name log :
  (search_team server name log).2 = log ++ [GetTeams name].
Proof.
  unfold search_team, requests_get.
  destruct (negb _); [done|]. destruct (json _) as [data|e]; [|done].
  by destruct (py_not _).
Qed.

Lemma open_window_spec data :
  (data = [] ∧ open_window data = Ok NoData)
  ∨ (data ≠ [] ∧ ∃ di, DrawInformation_init 1400 1000 data = Ok di
       ∧ open_window data = Ok (Window (initial_controller di data))).
Proof.
  unfold open_window.
  destruct (start_guards_no_data data) as [[-> ->]|(di & Hdi & ->)];
    [by left|right].
  split; [|by exists di].
  intros ->. unfold DrawInformation_init, set_list in Hdi. by cbn in Hdi.
Qed.

(** X15.  The online set-up of [main] composes the two calls of the API.
    Whatever the team search returns, it is the first request.  When the
    search raises, the set-up raises the same; when it finds no team, the
    set-up ends there with the message, and no players are requested.
    Otherwise the players are requested for the id of the FIRST team of
    the search only, page by page up to the page that stops the loop, and
    for no other team; then either no player of these pages qualifies and
    the set-up ends with the message that there is no data, without a
    window, or the window opens on a 1400 by 1000 surface with the list
    the fetch returned, not sorting, ascending, Bubble Sort selected and no
    generator made. *)
Theorem main_online_composes (server : api) (team_name season : string)
    (log : list request) :
  (∀ fuel e,
     (search_team server team_name log).1 = Raise e →
     main_online fuel server team_name season log
     = Some (Raise e, log ++ [GetTeams team_name]))
  ∧ (∀ fuel,
       (search_team server team_name log).1 = Ok [] →
       main_online fuel server team_name season log
       = Some (Ok NoMatchingTeam, log ++ [GetTeams team_name]))
  ∧ (∀ fuel first others stop,
       (search_team server team_name log).1 = Ok (first :: others) →
       (∀ p, (1 ≤ p < stop)%nat →
          continues (players_endpoint server
                       (GetPlayers (team_id first) season p)) = true) →
       breaks (players_endpoint server
                 (GetPlayers (team_id first) season stop)) = true →
       (1 ≤ stop ≤ fuel)%nat →
       let data :=
         take 20 (omap qualifies
                    (encountered server (team_id first) season stop)) in
       let log' :=
         log ++ GetTeams team_name
             :: (GetPlayers (team_id first) season <$> seq 1 stop) in
       (data = []
        ∧ main_online fuel server team_name season log = Some (Ok NoData, log'))
       ∨ (data ≠ []
          ∧ ∃ c,
              main_online fuel server team_name season log
              = Some (Ok (Window c), log')
              ∧ raw_data c = data ∧ lst (draw_info c) = data
              ∧ width (draw_info c) = 1400 ∧ height (draw_info c) = 1000
              ∧ run c = true ∧ sorting c = false ∧ ascending c = true
              ∧ sorting_algorithm c = BubbleSort
              ∧ sorting_algorithm_generator c = None
              ∧ generators_created c = 0%nat)).
Proof.
  pose proof (search_team_log server team_name log) as Hlog.
  unfold main_online.
  destruct (search_team server team_name log) as [results log1].
  cbn [fst snd] in *. subst log1.
  split; [|split].
  - by intros fuel e ->.
  - by intros fuel ->.
  - intros fuel first others stop -> Hcont Hbreak Hstop.
    set (data := take 20 _). set (log' := log ++ GetTeams team_name :: (_ <$> _)).
    rewrite (fetch_players_by_goals_spec server (team_id first) season stop
               fuel _ Hcont Hbreak Hstop).
    fold data. rewrite <- (assoc_L (++) log). cbn [app]. fold log'.
    destruct (open_window_spec data) as [[Hd ->]|(Hd & di & Hdi & ->)];
      [by left|right].
    split; [done|]. eexists. split; [done|].
    unfold DrawInformation_init in Hdi.
    pose proof (set_list_lst _ _ _ Hdi) as Hlst.
    pose proof (set_list_Ok _ _ _ Hdi) as (_ & _ & _ & _ & Hgeo).
    cbn. split_and!; try done; by rewrite Hgeo.
Qed.

Lemma main_online_composes_witness :
  main_online 2 two_clubs_server "United" "2022" []
  = Some (Ok NoData,
          [GetTeams "United"; GetPlayers 7 "2022" 1; GetPlayers 7 "2022" 2]).
Proof.
  destruct (main_online_composes two_clubs_server "United" "2022" [])
    as (_ & _ & H).
  destruct (H 2%nat {| team_id := 7; team_name := "United" |}
              [{| team_id := 33; team_name := "United" |}] 2%nat)
    as [[_ Hmain]|[Hdata _]].
  - reflexivity.
  - intros p Hp. assert (p = 1%nat) as -> by lia. reflexivity.
  - reflexivity.
  - lia.
  - exact Hmain.
  - by destruct Hdata.
Defined.

(** * The moves of the sorts *)














